(** * Iranian national ID validator: a shallow embedding of
    [ir_national_id_validator.py] and the properties of its
    normalisation / validation pipeline.

    Conventions of the embedding.
    - A Python [str] is a sequence of Unicode code points: [list N].
    - A Python [int] is unbounded: [Z].
    - [Optional[str]] is [option (list N)]; [None] is [None].
    - A call that may raise is a computation in the [outcome] monad:
      [Returns v] or [Raises e].
    - The dict [_DIGIT_MAP] is a [gmap N N], the set
      [_INVALID_SAME_DIGITS] a [gset (list N)].
    - [print] appends its string to the list of printed strings, which
      a printing computation threads through ([printing]), or raises
      what the standard output of the process ([Stdout]) makes it raise.
    - The Unicode "decimal digit" table of the Python runtime (used by
      [int(ch)] and by the regex class [\d]) is not part of the
      repository; it is the interface [PyUnicode]. *)

From Stdlib Require Import ZArith NArith Ascii String DecimalString.
From stdpp Require Import base decidable numbers option list gmap strings.

Local Open Scope N_scope.

(** ** Strings *)

Abbreviation pystr := (list N) (only parsing).

(** An ASCII literal of the source, as a sequence of code points. *)
Fixpoint py (s : string) : pystr :=
  match s with
  | EmptyString => []
  | String a s' => N_of_ascii a :: py s'
  end.

(** [str * n] *)
Definition str_mul (s : pystr) (n : nat) : pystr := mjoin (replicate n s).

(** [str(i)] for a non-negative [int]. *)
Definition str_of_nat (i : nat) : pystr := py (NilEmpty.string_of_uint (Nat.to_uint i)).

(** [sub in s]: [sub] occurs in [s] as a contiguous substring. *)
Definition occurs_in (sub s : pystr) : Prop := ∃ pre post, s = pre ++ sub ++ post.

(** The latin digits ['0'] .. ['9']; this is the regex class [[0-9]]. *)
Definition is_latin_digit (c : N) : Prop := 48 ≤ c ∧ c ≤ 57.

#[global] Instance is_latin_digit_dec c : Decision (is_latin_digit c).
Proof. unfold is_latin_digit. apply _. Defined.

(** [str.isspace] on one code point, the set [str.strip()] removes:
    the characters of bidirectional type WS, B or S and of category Zs. *)
Definition isspace (c : N) : bool :=
  ((9 <=? c) && (c <=? 13)) || ((28 <=? c) && (c <=? 32))
  || (c =? 0x85) || (c =? 0xA0) || (c =? 0x1680)
  || ((0x2000 <=? c) && (c <=? 0x200A))
  || (c =? 0x2028) || (c =? 0x2029) || (c =? 0x202F) || (c =? 0x205F)
  || (c =? 0x3000).

Fixpoint lstrip (s : pystr) : pystr :=
  match s with
  | [] => []
  | c :: s' => if isspace c then lstrip s' else s
  end.

Definition rstrip (s : pystr) : pystr := reverse (lstrip (reverse s)).

(** [s.strip()] *)
Definition strip (s : pystr) : pystr := rstrip (lstrip s).

(** ** Exceptions *)

Inductive exn : Type :=
  | ValueError (msg : pystr)
  | IndexError
  | UnicodeEncodeError
  | OSError.

Inductive outcome (A : Type) : Type :=
  | Returns (a : A)
  | Raises (e : exn).
Arguments Returns {A} a.
Arguments Raises {A} e.

#[global] Instance outcome_ret : MRet outcome := λ A a, Returns a.
#[global] Instance outcome_bind : MBind outcome := λ A B f m,
  match m with
  | Returns a => f a
  | Raises e => Raises e
  end.

(** [try: body  except Exception: handler] *)
Definition try_except {A} (body : outcome A) (handler : exn → outcome A) : outcome A :=
  match body with
  | Returns a => Returns a
  | Raises e => handler e
  end.

(** The [try] statement in an arbitrary monad of computations. *)
Class MTry (M : Type → Type) : Type :=
  mtry : ∀ {A}, M A → (exn → M A) → M A.

#[global] Instance outcome_try : MTry outcome := @try_except.

(** [for i in range: s = body i s], the loop state threaded through. *)
Fixpoint for_each {S : Type} (range : list nat) (body : nat → S → outcome S) (s : S) : outcome S :=
  match range with
  | [] => Returns s
  | i :: range' => s' ← body i s; for_each range' body s'
  end.

(** [l[i]] for a non-negative index. *)
Definition getitem {A} (l : list A) (i : nat) : outcome A :=
  match l !! i with
  | Some x => Returns x
  | None => Raises IndexError
  end.

(** ** The Unicode table of the runtime *)

(** [py_decimal c] is the decimal value of [c] when [c] is a Unicode
    decimal digit (category Nd), and [None] otherwise. Only its value on
    the latin digits is fixed here. *)
Class PyUnicode : Type := {
  py_decimal : N → option Z;
  py_decimal_latin : ∀ c, is_latin_digit c → py_decimal c = Some (Z.of_N c - 48)%Z
}.

(** A table with the three scripts the module mentions: latin,
    Arabic-Indic (U+0660..) and extended Arabic-Indic (U+06F0..). *)
Definition three_script_decimal (c : N) : option Z :=
  if decide (is_latin_digit c) then Some (Z.of_N c - 48)%Z
  else if decide (0x660 ≤ c ∧ c ≤ 0x669) then Some (Z.of_N c - 0x660)%Z
  else if decide (0x6F0 ≤ c ∧ c ≤ 0x6F9) then Some (Z.of_N c - 0x6F0)%Z
  else None.

Definition three_script_unicode : PyUnicode :=
  {| py_decimal := three_script_decimal;
     py_decimal_latin := λ c Hc, eq_ind_r (λ d, d = Some (Z.of_N c - 48)%Z) eq_refl
                                  (decide_True (Some (Z.of_N c - 48)%Z) _ Hc) |}.

(** ** Module constants *)

Definition _DIGIT_MAP : gmap N N :=
  list_to_map
    [ (0x6F0, 48); (0x6F1, 49); (0x6F2, 50); (0x6F3, 51); (0x6F4, 52);
      (0x6F5, 53); (0x6F6, 54); (0x6F7, 55); (0x6F8, 56); (0x6F9, 57);
      (0x660, 48); (0x661, 49); (0x662, 50); (0x663, 51); (0x664, 52);
      (0x665, 53); (0x666, 54); (0x667, 55); (0x668, 56); (0x669, 57) ].

(** [{str(i) * 10 for i in range(10)}] *)
Definition _INVALID_SAME_DIGITS : gset (list N) :=
  list_to_set ((λ i, str_mul (str_of_nat i) 10) <$> seq 0 10).

(** ** normalize_national_id *)

(** The loop body: [_DIGIT_MAP[ch]] when [ch in _DIGIT_MAP], else [ch].
    The subscript is only evaluated under the membership test, so it
    cannot raise KeyError. *)
Definition translate_char (ch : N) : N :=
  match _DIGIT_MAP !! ch with
  | Some d => d
  | None => ch
  end.

(** [re.sub(r'[^0-9]', '', joined)] *)
Definition re_sub_non_digits (joined : pystr) : pystr := filter is_latin_digit joined.

Definition normalize_national_id (s : option pystr) : pystr :=
  match s with
  | None => []
  | Some s =>
      let s := strip s in
      match s with
      | [] => []
      | _ =>
          let joined := translate_char <$> s in
          re_sub_non_digits joined
      end
  end.

Section Validator.
Context `{U : PyUnicode}.

(** [int(ch)] on a one-character string: the decimal value of a decimal
    digit, ValueError on any other character (the message quotes the
    character; the escapes of [repr] are not modelled). *)
Definition int_of_char (ch : N) : outcome Z :=
  match py_decimal ch with
  | Some d => Returns d
  | None => Raises (ValueError (py "invalid literal for int() with base 10: '"
                                ++ [ch] ++ py "'"))
  end.

(** The regex class [\d] on a [str] pattern: any Unicode decimal digit. *)
Definition is_decimal (c : N) : bool := bool_decide (is_Some (py_decimal c)).

(** [_RE_10_DIGITS.match(s)]: the pattern [^\d{10}$]; [$] also matches
    just before a newline that ends the string. *)
Definition _RE_10_DIGITS_match (s : pystr) : bool :=
  let head := take 10 s in
  let rest := drop 10 s in
  bool_decide (length head = 10%nat) && forallb is_decimal head
  && bool_decide (rest = [] ∨ rest = [10]).

Definition _checksum_ok (code10 : pystr) : outcome bool :=
  digits ← mapM int_of_char code10;
  s ← for_each (seq 0 9)
        (λ i s, let weight := (10 - Z.of_nat i)%Z in
                d ← getitem digits i;
                mret (s + d * weight)%Z)
        0%Z;
  let r := (s `mod` 11)%Z in
  check_digit ← getitem digits 9;
  if bool_decide (r < 2)%Z
  then mret (bool_decide (check_digit = r))
  else mret (bool_decide (check_digit = 11 - r)%Z).

(** The body of [is_valid_national_id], with the function bound to the
    global name [_checksum_ok] at the time of the call as a parameter.
    The body is written once, for every monad [M] of computations, so
    that the function bound to the name may raise (in [outcome]) and may
    also leave a trace of its calls (in [printing]). *)
Definition is_valid_national_id_in (M : Type → Type) `{!MRet M, !MBind M, !MTry M}
    (checksum_ok : pystr → M bool)
    (s : option pystr) : M (bool * option pystr * option pystr)%type :=
  match s with
  | None => mret (false, Some (py "empty"), None)
  | Some _ =>
      let norm := normalize_national_id s in
      match norm with
      | [] => mret (false, Some (py "empty"), None)
      | _ =>
          if negb (_RE_10_DIGITS_match norm)
          then mret (false, Some (py "length_or_not_digits"), Some norm)
          else if bool_decide (norm ∈ _INVALID_SAME_DIGITS)
          then mret (false, Some (py "all_same_digits"), Some norm)
          else
            early ← mtry
                      (ok ← checksum_ok norm;
                       if negb ok
                       then mret (Some (false, Some (py "checksum"), Some norm))
                       else mret None)
                      (λ _, mret (Some (false, Some (py "checksum_error"), Some norm)));
            match early with
            | Some result => mret result
            | None => mret (true, None, Some norm)
            end
      end
  end.

Definition is_valid_national_id_with (checksum_ok : pystr → outcome bool)
    (s : option pystr) : outcome (bool * option pystr * option pystr) :=
  is_valid_national_id_in outcome checksum_ok s.

Definition is_valid_national_id (s : option pystr)
    : outcome (bool * option pystr * option pystr) :=
  is_valid_national_id_with _checksum_ok s.

(** How an f-string renders an [Optional[str]]. *)
Definition format_opt (o : option pystr) : pystr :=
  match o with
  | Some s => s
  | None => py "None"
  end.

Definition validate_or_raise (s : option pystr) : outcome (option pystr) :=
  '(ok, reason, norm) ← is_valid_national_id s;
  if ok : bool
  then mret norm
  else Raises (ValueError (py "Invalid national id: reason=" ++ format_opt reason
                           ++ py ", normalized=" ++ format_opt norm)).

Definition is_valid (s : option pystr) : outcome bool :=
  '(ok, _, _) ← is_valid_national_id s;
  mret ok.

End Validator.


(** ** The command line *)

(** A computation that prints. The strings that [print] has written so
    far, one entry per call, are threaded through and kept when the
    computation raises. The same monad serves to record the calls of a
    function: the log then holds the arguments of the calls. *)
Definition printing (A : Type) : Type := list (list N) → outcome A * list (list N).

#[global] Instance printing_ret : MRet printing := λ A a out, (Returns a, out).
#[global] Instance printing_bind : MBind printing := λ A B f m out,
  match m out with
  | (Returns a, out') => f a out'
  | (Raises e, out') => (Raises e, out')
  end.

#[global] Instance printing_try : MTry printing := λ A body handler out,
  match body out with
  | (Returns a, out') => (Returns a, out')
  | (Raises e, out') => handler e out'
  end.

(** The standard output of the process. [print_failure out line] tells
    whether [print(line)] raises after [out] has been written, and what:
    UnicodeEncodeError when the encoding of the stream cannot encode the
    string, OSError or ValueError when the stream is broken or closed.
    Nothing is fixed about it. *)
Class Stdout : Type := {
  print_failure : list (list N) → list N → option exn
}.


(** A standard output in ASCII: [print] raises UnicodeEncodeError on a
    string with a character above U+007F. *)
Definition ascii_stdout : Stdout :=
  {| print_failure := λ _ line,
       if forallb (λ c, c <=? 127) line then None else Some UnicodeEncodeError |}.

(** [print(line)]: the string is written, or the call raises and nothing
    of the string is written. *)
Definition print `{O : Stdout} (line : pystr) : printing unit := λ out,
  match print_failure out line with
  | None => (Returns (), out ++ [line])
  | Some e => (Raises e, out)
  end.

(** A function that records each of its calls: the argument is appended
    to the log, then [f] gives the result. *)
Definition recorded {A} (f : pystr → outcome A) : pystr → printing A :=
  λ code log, (f code, log ++ [code]).

(** A call that does not print. *)
Definition silent {A} (m : outcome A) : printing A := λ out, (m, out).

(** [for a in args: s = body a s], printing on the way. *)
Fixpoint for_each_arg {A S : Type} (args : list A) (body : A → S → printing S) (s : S)
    : printing S :=
  match args with
  | [] => mret s
  | a :: args' => s' ← body a s; for_each_arg args' body s'
  end.

Section CommandLine.
Context `{U : PyUnicode} `{O : Stdout}.

Definition _cli_main (argv : list (list N)) : printing Z :=
  if bool_decide (length argv < 2)%nat
  then
    _ ← print (py "Usage: python ir_national_id_validator.py <national_id> [<national_id> ...]");
    mret 2%Z
  else
    for_each_arg (drop 1 argv)
      (λ code exit_code,
         '(ok, reason, norm) ← silent (is_valid_national_id (Some code));
         if ok : bool
         then
           _ ← print (py "VALID  -> " ++ code ++ py "  normalized: " ++ format_opt norm);
           mret exit_code
         else
           _ ← print (py "INVALID -> " ++ code ++ py "  reason: " ++ format_opt reason
                      ++ py "  normalized: " ++ format_opt norm);
           mret 1%Z)
      0%Z.

End CommandLine.

(** The value [int(ch)] returns on a decimal digit. *)
Definition decimal_value `{U : PyUnicode} (c : N) : Z := default 0%Z (py_decimal c).

(** Printing the strings one after the other, up to the first one on
    which [print] raises: the exception, if any, and what was written. *)
Fixpoint print_lines `{O : Stdout} (lines : list (list N)) (out : list (list N))
    : option exn * list (list N) :=
  match lines with
  | [] => (None, out)
  | line :: lines' =>
      match print_failure out line with
      | None => print_lines lines' (out ++ [line])
      | Some e => (Some e, out)
      end
  end.

(** What [_cli_main] prints for one argument. *)
Definition report_line `{U : PyUnicode} (code : pystr) : pystr :=
  match is_valid_national_id (Some code) with
  | Returns (true, _, norm) =>
      py "VALID  -> " ++ code ++ py "  normalized: " ++ format_opt norm
  | Returns (false, reason, norm) =>
      py "INVALID -> " ++ code ++ py "  reason: " ++ format_opt reason
      ++ py "  normalized: " ++ format_opt norm
  | Raises _ => []
  end.

(** The strings [_cli_main] sets out to print, in order. *)
Definition cli_lines `{U : PyUnicode} (argv : list (list N)) : list (list N) :=
  if bool_decide (length argv < 2)%nat
  then [py "Usage: python ir_national_id_validator.py <national_id> [<national_id> ...]"]
  else report_line <$> drop 1 argv.

(** A digit of one of the three scripts of [_DIGIT_MAP] and [[0-9]]. *)
Definition is_digit_glyph (c : N) : Prop :=
  (0x6F0 ≤ c ∧ c ≤ 0x6F9) ∨ (0x660 ≤ c ∧ c ≤ 0x669) ∨ is_latin_digit c.

(** ** Specification-level definitions *)

(** The latin equivalent of a character, in the words of the
    specification: a Persian-script digit (U+06F0..U+06F9) or an
    Arabic-script digit (U+0660..U+0669) stands for the latin digit of the
    same value, a latin digit for itself, and any other character for
    nothing. *)
Definition spec_latin_digit (c : N) : option N :=
  if decide (0x6F0 ≤ c ∧ c ≤ 0x6F9) then Some (c - 0x6F0 + 48)
  else if decide (0x660 ≤ c ∧ c ≤ 0x669) then Some (c - 0x660 + 48)
  else if decide (is_latin_digit c) then Some c
  else None.

(** The value of a latin digit. *)
Definition digit_value (c : N) : Z := (Z.of_N c - 48)%Z.

(** [S = Σ_{i=0}^{8} d[i] * (10 - i)] *)
Definition weighted_sum (d : list Z) : Z :=
  foldr Z.add 0%Z ((λ i, (d !!! i) * (10 - Z.of_nat i))%Z <$> seq 0 9).

(** [R] when [R < 2], else [11 - R], for [R = S mod 11]. *)
Definition expected_check_digit (d : list Z) : Z :=
  let R := (weighted_sum d `mod` 11)%Z in
  if bool_decide (R < 2)%Z then R else (11 - R)%Z.

(** The Persian-glyph form of "0499370899":
    U+06F0 U+06F4 U+06F9 U+06F9 U+06F3 U+06F7 U+06F0 U+06F8 U+06F9 U+06F9. *)
Definition persian_0499370899 : pystr :=
  [0x6F0; 0x6F4; 0x6F9; 0x6F9; 0x6F3; 0x6F7; 0x6F0; 0x6F8; 0x6F9; 0x6F9].

(** [d[9] == expected check digit], on the digits of a code. *)
Definition check_digit_matches (code : pystr) : bool :=
  let d := digit_value <$> code in
  bool_decide (d !!! 9%nat = expected_check_digit d).

(** The validation pipeline in the words of the specification: the
    structural validator on the normalized code, then the check digit. *)
Definition spec_validate (x : option pystr) : bool * option pystr * option pystr :=
  let norm := normalize_national_id x in
  if bool_decide (norm = []) then (false, Some (py "empty"), None)
  else if negb (bool_decide (length norm = 10%nat))
  then (false, Some (py "length_or_not_digits"), Some norm)
  else if bool_decide (norm ∈ _INVALID_SAME_DIGITS)
  then (false, Some (py "all_same_digits"), Some norm)
  else if check_digit_matches norm then (true, None, Some norm)
  else (false, Some (py "checksum"), Some norm).

(** ** Theorems *)

(** *** Characters *)

Lemma translate_char_persian c :
  0x6F0 ≤ c ∧ c ≤ 0x6F9 → translate_char c = c - 0x6F0 + 48.
Proof.
  intros Hc.
  assert (c ∈ N.of_nat <$> seq 0x6F0 10) as Hin.
  { apply list_elem_of_fmap. exists (N.to_nat c). split; [lia|].
    apply elem_of_seq. lia. }
  cbn in Hin. repeat (apply elem_of_cons in Hin as [->|Hin]; [reflexivity|]).
  by apply elem_of_nil in Hin.
Qed.

Lemma translate_char_arabic c :
  0x660 ≤ c ∧ c ≤ 0x669 → translate_char c = c - 0x660 + 48.
Proof.
  intros Hc.
  assert (c ∈ N.of_nat <$> seq 0x660 10) as Hin.
  { apply list_elem_of_fmap. exists (N.to_nat c). split; [lia|].
    apply elem_of_seq. lia. }
  cbn in Hin. repeat (apply elem_of_cons in Hin as [->|Hin]; [reflexivity|]).
  by apply elem_of_nil in Hin.
Qed.

Lemma translate_char_other c :
  ¬ (0x6F0 ≤ c ∧ c ≤ 0x6F9) → ¬ (0x660 ≤ c ∧ c ≤ 0x669) → translate_char c = c.
Proof.
  intros Hp Ha. unfold translate_char.
  assert (_DIGIT_MAP !! c = None) as ->; [|done].
  apply not_elem_of_list_to_map_1. cbn.
  rewrite !not_elem_of_cons. repeat split; try lia. apply not_elem_of_nil.
Qed.

Lemma spec_latin_digit_translate c :
  spec_latin_digit c =
    if decide (is_latin_digit (translate_char c)) then Some (translate_char c) else None.
Proof.
  unfold spec_latin_digit.
  destruct (decide (0x6F0 ≤ c ∧ c ≤ 0x6F9)) as [Hp|Hp].
  { rewrite translate_char_persian by done.
    rewrite decide_True; [done | unfold is_latin_digit; lia]. }
  destruct (decide (0x660 ≤ c ∧ c ≤ 0x669)) as [Ha|Ha].
  { rewrite translate_char_arabic by done.
    rewrite decide_True; [done | unfold is_latin_digit; lia]. }
  by rewrite translate_char_other.
Qed.

Lemma spec_latin_digit_latin c : is_latin_digit c → spec_latin_digit c = Some c.
Proof.
  intros Hc. unfold spec_latin_digit, is_latin_digit in *.
  rewrite !decide_False by lia. by rewrite decide_True.
Qed.

Lemma spec_latin_digit_Some c d : spec_latin_digit c = Some d → is_latin_digit d.
Proof.
  unfold spec_latin_digit, is_latin_digit.
  repeat case_decide; intros; simplify_eq; lia.
Qed.

Lemma spec_latin_digit_space c : isspace c = true → spec_latin_digit c = None.
Proof.
  unfold isspace. rewrite !orb_true_iff, !andb_true_iff, !N.leb_le, !N.eqb_eq.
  intros Hc. unfold spec_latin_digit, is_latin_digit.
  rewrite !decide_False by lia. done.
Qed.

(** *** Normalisation *)

Lemma re_sub_translate s :
  re_sub_non_digits (translate_char <$> s) = omap spec_latin_digit s.
Proof.
  unfold re_sub_non_digits. induction s as [|c s IH]; [done|].
  rewrite fmap_cons, filter_cons, IH. cbn [omap list_omap].
  rewrite (spec_latin_digit_translate c). by case_decide.
Qed.

Lemma omap_lstrip s : omap spec_latin_digit (lstrip s) = omap spec_latin_digit s.
Proof.
  induction s as [|c s IH]; [done|]. cbn [lstrip].
  destruct (isspace c) eqn:Hsp; [|done].
  cbn [omap list_omap]. by rewrite (spec_latin_digit_space c Hsp).
Qed.

Lemma omap_reverse {A B} (f : A → option B) (l : list A) :
  omap f (reverse l) = reverse (omap f l).
Proof.
  induction l as [|a l IH]; [done|].
  rewrite reverse_cons, omap_app, IH. cbn [omap list_omap].
  destruct (f a); [by rewrite reverse_cons | by rewrite app_nil_r].
Qed.

Lemma omap_strip s : omap spec_latin_digit (strip s) = omap spec_latin_digit s.
Proof.
  unfold strip, rstrip.
  rewrite omap_reverse, omap_lstrip, omap_reverse, reverse_involutive.
  apply omap_lstrip.
Qed.

Lemma normalize_omap s : normalize_national_id (Some s) = omap spec_latin_digit s.
Proof.
  rewrite <- omap_strip. unfold normalize_national_id.
  destruct (strip s) as [|c s'] eqn:Hs; [done|]. apply re_sub_translate.
Qed.

Lemma omap_spec_latin s : Forall is_latin_digit (omap spec_latin_digit s).
Proof.
  induction s as [|c s IH]; [constructor|]. cbn [omap list_omap].
  destruct (spec_latin_digit c) as [d|] eqn:Hd; [|done].
  constructor; [by eapply spec_latin_digit_Some | done].
Qed.

Lemma normalize_latin x : Forall is_latin_digit (normalize_national_id x).
Proof.
  destruct x as [s|]; [|constructor]. rewrite normalize_omap. apply omap_spec_latin.
Qed.

Lemma normalize_fixed s : Forall is_latin_digit s → normalize_national_id (Some s) = s.
Proof.
  rewrite normalize_omap. induction 1 as [|c s Hc _ IH]; [done|].
  cbn [omap list_omap]. by rewrite (spec_latin_digit_latin c Hc), IH.
Qed.

(** C5: normalisation is the order-preserving character-wise translation
    that sends each Persian-script digit U+06F0..U+06F9 and each
    Arabic-script digit U+0660..U+0669 to the latin digit of the same
    value, keeps latin digits and drops every other character; it acts on
    each position independently of where it occurs, so the normal form of
    a concatenation is the concatenation of the normal forms. *)
Theorem normalize_maps_digit_glyphs :
  (∀ s, normalize_national_id (Some s) = omap spec_latin_digit s)
  ∧ (∀ s1 s2, normalize_national_id (Some (s1 ++ s2))
              = normalize_national_id (Some s1) ++ normalize_national_id (Some s2))
  ∧ (∀ k, k < 10 →
       normalize_national_id (Some [0x6F0 + k]) = [48 + k]
       ∧ normalize_national_id (Some [0x660 + k]) = [48 + k]
       ∧ normalize_national_id (Some [48 + k]) = [48 + k])
  ∧ (∀ c, ¬ (0x6F0 ≤ c ∧ c ≤ 0x6F9) → ¬ (0x660 ≤ c ∧ c ≤ 0x669) → ¬ is_latin_digit c →
       normalize_national_id (Some [c]) = []).
Proof.
  split; [exact normalize_omap|]. split; [|split].
  - intros s1 s2. rewrite !normalize_omap. apply omap_app.
  - intros k Hk. rewrite !normalize_omap. cbn [omap list_omap].
    unfold spec_latin_digit, is_latin_digit.
    repeat split.
    + rewrite decide_True by lia. cbn. f_equal. lia.
    + rewrite decide_False by lia. rewrite decide_True by lia. cbn. f_equal. lia.
    + rewrite !decide_False by lia. rewrite decide_True by lia. done.
  - intros c Hp Ha Hl. rewrite normalize_omap. cbn [omap list_omap].
    unfold spec_latin_digit. by rewrite !decide_False.
Qed.

(** C6: normalisation is idempotent, and every string of latin digits is a
    fixed point of it. *)
Theorem normalize_idempotent :
  (∀ x, normalize_national_id (Some (normalize_national_id x)) = normalize_national_id x)
  ∧ (∀ s, Forall is_latin_digit s → normalize_national_id (Some s) = s).
Proof.
  split; [|exact normalize_fixed].
  intros x. apply normalize_fixed, normalize_latin.
Qed.

(** *** The pipeline, stage by stage *)

Lemma getitem_lt {A} `{Inhabited A} (l : list A) i :
  (i < length l)%nat → getitem l i = Returns (l !!! i).
Proof.
  intros Hi. unfold getitem. by rewrite (list_lookup_lookup_total_lt l i Hi).
Qed.

(** The accumulating loop computes the sum of its terms. *)
Lemma for_each_sum (digits : list Z) (w : nat → Z) range acc :
  Forall (λ i, i < length digits)%nat range →
  for_each range (λ i s, d ← getitem digits i; mret (s + d * w i)%Z) acc
  = Returns (acc + foldr Z.add 0 ((λ i, (digits !!! i) * w i) <$> range))%Z.
Proof.
  intros Hrange. revert acc.
  induction Hrange as [|i range Hi _ IH]; intros acc; cbn [for_each fmap list_fmap foldr].
  - f_equal. lia.
  - rewrite (getitem_lt digits i Hi). cbn [mbind outcome_bind mret outcome_ret].
    rewrite IH. f_equal. lia.
Qed.

Section ValidatorProperties.
Context `{U : PyUnicode}.

Lemma int_of_char_latin c :
  is_latin_digit c → int_of_char c = Returns (digit_value c).
Proof. intros Hc. unfold int_of_char. by rewrite (py_decimal_latin c Hc). Qed.

Lemma mapM_int_of_char_latin s :
  Forall is_latin_digit s → mapM int_of_char s = Returns (digit_value <$> s).
Proof.
  induction 1 as [|c s Hc _ IH]; [done|].
  cbn [mapM]. rewrite (int_of_char_latin c Hc).
  cbn [mbind outcome_bind]. rewrite IH. done.
Qed.

Lemma is_decimal_latin c : is_latin_digit c → is_decimal c = true.
Proof.
  intros Hc. unfold is_decimal. rewrite (py_decimal_latin c Hc).
  by apply bool_decide_eq_true_2.
Qed.

(** On a string of latin digits the pattern only checks the length. *)
Lemma _RE_10_DIGITS_match_latin s :
  Forall is_latin_digit s → _RE_10_DIGITS_match s = bool_decide (length s = 10%nat).
Proof.
  intros Hs. unfold _RE_10_DIGITS_match. cbv zeta.
  destruct (decide (length s = 10%nat)) as [Hlen|Hlen].
  - rewrite (bool_decide_eq_true_2 (length s = 10%nat)) by done.
    rewrite take_ge, drop_ge by lia.
    rewrite !bool_decide_eq_true_2 by auto.
    rewrite andb_true_r, andb_true_l. apply forallb_forall.
    intros c Hc. apply is_decimal_latin.
    rewrite Forall_forall in Hs. by apply Hs, list_elem_of_In.
  - rewrite (bool_decide_eq_false_2 (length s = 10%nat)) by done.
    destruct (decide (length s < 10)%nat) as [Hlt|Hge].
    { rewrite bool_decide_eq_false_2; [done|]. rewrite length_take. lia. }
    rewrite (bool_decide_eq_false_2 (_ ∨ _)); [apply andb_false_r|].
    pose proof (Forall_drop _ 10 _ Hs) as Hd.
    pose proof (length_drop s 10) as Hl.
    destruct (drop 10 s) as [|c rest]; [cbn in Hl; lia|].
    apply Forall_cons in Hd as [Hc _].
    intros [?|?]; simplify_eq. unfold is_latin_digit in Hc. lia.
Qed.

Lemma _checksum_ok_latin code :
  length code = 10%nat → Forall is_latin_digit code →
  _checksum_ok code = Returns (check_digit_matches code).
Proof.
  intros Hlen Hcode. unfold _checksum_ok.
  rewrite (mapM_int_of_char_latin code Hcode). cbn [mbind outcome_bind].
  assert (length (digit_value <$> code) = 10%nat) as Hd by by rewrite length_fmap.
  rewrite (for_each_sum (digit_value <$> code) (λ i, 10 - Z.of_nat i)%Z).
  2:{ apply Forall_forall. intros i Hi%elem_of_seq. lia. }
  cbn [mbind outcome_bind]. rewrite getitem_lt by lia. cbn [mbind outcome_bind].
  unfold check_digit_matches, expected_check_digit. fold (weighted_sum (digit_value <$> code)).
  rewrite Z.add_0_l. cbv zeta. by case_bool_decide.
Qed.

(** The result of [is_valid_national_id_with], by stage. *)
Lemma is_valid_national_id_with_cases checksum_ok x :
  is_valid_national_id_with checksum_ok x =
    let norm := normalize_national_id x in
    if bool_decide (norm = []) then Returns (false, Some (py "empty"), None)
    else if negb (bool_decide (length norm = 10%nat))
    then Returns (false, Some (py "length_or_not_digits"), Some norm)
    else if bool_decide (norm ∈ _INVALID_SAME_DIGITS)
    then Returns (false, Some (py "all_same_digits"), Some norm)
    else match checksum_ok norm with
         | Returns true => Returns (true, None, Some norm)
         | Returns false => Returns (false, Some (py "checksum"), Some norm)
         | Raises _ => Returns (false, Some (py "checksum_error"), Some norm)
         end.
Proof.
  unfold is_valid_national_id_with, is_valid_national_id_in.
  destruct x as [s|]; [|done]. cbv zeta.
  pose proof (normalize_latin (Some s)) as Hlatin.
  destruct (normalize_national_id (Some s)) as [|c norm] eqn:Hnorm; [done|].
  rewrite (bool_decide_eq_false_2 (_ = [])) by done.
  rewrite (_RE_10_DIGITS_match_latin _ Hlatin).
  destruct (negb _); [done|]. destruct (bool_decide (_ ∈ _)); [done|].
  by destruct (checksum_ok (c :: norm)) as [[|]|e].
Qed.

(** The same in the monad with a log: the log goes through the function
    bound to [_checksum_ok], and only through it. *)
Lemma is_valid_national_id_in_printing_cases (checksum_ok : list N → printing bool) x log :
  is_valid_national_id_in printing checksum_ok x log =
    let norm := normalize_national_id x in
    if bool_decide (norm = []) then (Returns (false, Some (py "empty"), None), log)
    else if negb (bool_decide (length norm = 10%nat))
    then (Returns (false, Some (py "length_or_not_digits"), Some norm), log)
    else if bool_decide (norm ∈ _INVALID_SAME_DIGITS)
    then (Returns (false, Some (py "all_same_digits"), Some norm), log)
    else match checksum_ok norm log with
         | (Returns true, log') => (Returns (true, None, Some norm), log')
         | (Returns false, log') => (Returns (false, Some (py "checksum"), Some norm), log')
         | (Raises _, log') => (Returns (false, Some (py "checksum_error"), Some norm), log')
         end.
Proof.
  unfold is_valid_national_id_in. destruct x as [s|]; [|done]. cbv zeta.
  pose proof (normalize_latin (Some s)) as Hlatin.
  destruct (normalize_national_id (Some s)) as [|c norm] eqn:Hnorm; [done|].
  rewrite (bool_decide_eq_false_2 (_ = [])) by done.
  rewrite (_RE_10_DIGITS_match_latin _ Hlatin).
  destruct (negb _); [done|]. destruct (bool_decide (_ ∈ _)); [done|].
  unfold mbind at 1, printing_bind at 1, mtry at 1, printing_try at 1.
  unfold mbind at 1, printing_bind at 1.
  by destruct (checksum_ok (c :: norm) log) as [[[|]|e] log'].
Qed.

Lemma is_valid_national_id_spec x :
  is_valid_national_id x = Returns (spec_validate x).
Proof.
  unfold is_valid_national_id, spec_validate.
  rewrite is_valid_national_id_with_cases. cbv zeta.
  destruct (bool_decide (_ = [])); [done|].
  destruct (bool_decide (length _ = _)) eqn:Hlen; [|done]. cbn [negb].
  destruct (bool_decide (_ ∈ _)); [done|].
  apply bool_decide_eq_true_1 in Hlen.
  rewrite (_checksum_ok_latin _ Hlen (normalize_latin x)).
  by destruct (check_digit_matches _).
Qed.

End ValidatorProperties.

(** *** Facts about the staged pipeline *)

(** Two different reason literals are different strings. *)
Ltac distinct_reasons :=
  let H := fresh in
  intros H;
  lazymatch type of H with
  | Some (py _) = Some (py _) => vm_compute in H; discriminate H
  end.

(** The five ways through [spec_validate]. *)
Ltac spec_validate_cases x :=
  unfold spec_validate; cbv zeta;
  destruct (bool_decide (normalize_national_id x = [])) eqn:?;
  [| destruct (bool_decide (length (normalize_national_id x) = 10%nat)) eqn:?;
     cbn [negb];
     [ destruct (bool_decide (normalize_national_id x ∈ _INVALID_SAME_DIGITS)) eqn:?;
       [| destruct (check_digit_matches (normalize_national_id x)) eqn:? ] |] ];
  cbn [fst snd].

Lemma spec_validate_reason_iff x :
  is_Some (spec_validate x).1.2 ↔ (spec_validate x).1.1 = false.
Proof.
  spec_validate_cases x.
  1-2, 4-5: by split; [reflexivity | intros _; eexists].
  split; [intros [? [=]] | discriminate].
Qed.

Lemma spec_validate_norm x :
  (spec_validate x).2 =
    if bool_decide (normalize_national_id x = []) then None
    else Some (normalize_national_id x).
Proof. spec_validate_cases x; reflexivity. Qed.

Lemma spec_validate_empty x :
  (spec_validate x).2 = None → (spec_validate x).1.2 = Some (py "empty").
Proof. spec_validate_cases x; intros H; first [ reflexivity | discriminate H ]. Qed.

Lemma spec_validate_checksum x :
  (spec_validate x).1.2 = Some (py "checksum") ↔
    length (normalize_national_id x) = 10%nat
    ∧ (normalize_national_id x ∉ _INVALID_SAME_DIGITS)
    ∧ check_digit_matches (normalize_national_id x) = false.
Proof.
  spec_validate_cases x;
    repeat match goal with
           | H : bool_decide _ = true |- _ => apply bool_decide_eq_true_1 in H
           | H : bool_decide _ = false |- _ => apply bool_decide_eq_false_1 in H
           end.
  - split; [distinct_reasons|]. intros (Hlen & _). by destruct (normalize_national_id x).
  - split; [distinct_reasons|]. by intros (_ & ? & _).
  - split; [discriminate|]. by intros (_ & _ & ?).
  - done.
  - split; [distinct_reasons|]. by intros (? & _).
Qed.

Lemma spec_validate_not_checksum_error x :
  (spec_validate x).1.2 ≠ Some (py "checksum_error").
Proof. spec_validate_cases x; first [ discriminate | distinct_reasons ]. Qed.

Lemma spec_validate_valid x :
  (spec_validate x).1.1 = true →
    spec_validate x = (true, None, Some (normalize_national_id x))
    ∧ length (normalize_national_id x) = 10%nat
    ∧ (normalize_national_id x ∉ _INVALID_SAME_DIGITS)
    ∧ check_digit_matches (normalize_national_id x) = true.
Proof.
  spec_validate_cases x; try discriminate. intros _.
  repeat match goal with
         | H : bool_decide _ = true |- _ => apply bool_decide_eq_true_1 in H
         | H : bool_decide _ = false |- _ => apply bool_decide_eq_false_1 in H
         end.
  done.
Qed.

Lemma spec_validate_revalidate x :
  (spec_validate x).1.1 = true →
  spec_validate (Some (normalize_national_id x))
  = (true, None, Some (normalize_national_id x)).
Proof.
  intros (_ & Hlen & Hsame & Hchk)%spec_validate_valid.
  unfold spec_validate. cbv zeta.
  rewrite (normalize_fixed _ (normalize_latin x)).
  rewrite bool_decide_eq_false_2 by (by destruct (normalize_national_id x)).
  rewrite (bool_decide_eq_true_2 _ Hlen). cbn [negb].
  rewrite (bool_decide_eq_false_2 _ Hsame). by rewrite Hchk.
Qed.

(** *** The claims about the validator *)

Section Claims.
Context `{U : PyUnicode}.

(** C1: on a string of exactly 10 latin digits d[0..9] the checksum
    verifier returns whether d[9] equals the expected check digit
    (R if R < 2, else 11 - R, for R = S mod 11 and
    S = sum of d[i] * (10 - i) over i = 0..8); and validation fails with
    reason 'checksum' exactly when the normalized input has 10 digits,
    is not a repeated digit, and that equality fails. *)
Theorem checksum_verifier_correct :
  (∀ code, length code = 10%nat → Forall is_latin_digit code →
     let d := digit_value <$> code in
     _checksum_ok code = Returns (bool_decide (d !!! 9%nat = expected_check_digit d)))
  ∧ (∀ x, (∃ ok norm, is_valid_national_id x = Returns (ok, Some (py "checksum"), norm))
          ↔ let norm := normalize_national_id x in
            let d := digit_value <$> norm in
            length norm = 10%nat ∧ Forall is_latin_digit norm
            ∧ (norm ∉ _INVALID_SAME_DIGITS)
            ∧ d !!! 9%nat ≠ expected_check_digit d).
Proof.
  split.
  - intros code Hlen Hcode. exact (_checksum_ok_latin code Hlen Hcode).
  - intros x. rewrite is_valid_national_id_spec. cbv zeta.
    pose proof (spec_validate_checksum x) as Hiff.
    unfold check_digit_matches in Hiff. rewrite bool_decide_eq_false in Hiff.
    split.
    + intros (ok & norm & [= Hr]).
      assert ((spec_validate x).1.2 = Some (py "checksum")) as Hc by by rewrite Hr.
      apply Hiff in Hc as (? & ? & ?). eauto using normalize_latin.
    + intros (Hlen & _ & Hsame & Hchk).
      destruct (spec_validate x) as [[ok reason] norm] eqn:Hr.
      exists ok, norm. do 3 f_equal. apply Hiff. done.
Qed.

(** C2: every result has a failure reason exactly when its validity flag
    is false; a nonempty normalized string is always the returned
    normalized code, and the code is absent only when normalization
    gives the empty string, where the reason is 'empty'. *)
Theorem result_invariant x :
  ∃ ok reason norm,
    is_valid_national_id x = Returns (ok, reason, norm)
    ∧ (is_Some reason ↔ ok = false)
    ∧ (normalize_national_id x ≠ [] → norm = Some (normalize_national_id x))
    ∧ (norm = None → normalize_national_id x = [] ∧ reason = Some (py "empty")).
Proof.
  rewrite is_valid_national_id_spec.
  pose proof (spec_validate_reason_iff x) as Hreason.
  pose proof (spec_validate_norm x) as Hnorm.
  pose proof (spec_validate_empty x) as Hempty.
  destruct (spec_validate x) as [[ok reason] norm]. cbn [fst snd] in *.
  exists ok, reason, norm. split; [done|]. split; [done|]. split.
  - intros Hne. by rewrite Hnorm, bool_decide_eq_false_2.
  - intros ->. split; [|by apply Hempty].
    case_bool_decide; [done | discriminate Hnorm].
Qed.

(** C3: each of the ten strings made of one digit repeated ten times is
    rejected with reason 'all_same_digits', and on these inputs the
    checksum verifier is never evaluated: whatever function is bound to
    [_checksum_ok], also one that raises and one that records its calls
    or changes the log in any other way, the result is the same and the
    log is left as it was. The log is not blind: with the recording
    [_checksum_ok], every input gets the result of
    [is_valid_national_id], and its normalized code is recorded, once,
    exactly when it has 10 digits and is not a repeated digit. *)
Theorem repeated_digits_rejected :
  Forall (λ code,
            (∀ checksum_ok,
               is_valid_national_id_with checksum_ok (Some code)
               = Returns (false, Some (py "all_same_digits"), Some code))
            ∧ (∀ (checksum_ok : list N → printing bool) log,
                 is_valid_national_id_in printing checksum_ok (Some code) log
                 = (Returns (false, Some (py "all_same_digits"), Some code), log)))
    [ py "0000000000"; py "1111111111"; py "2222222222"; py "3333333333";
      py "4444444444"; py "5555555555"; py "6666666666"; py "7777777777";
      py "8888888888"; py "9999999999" ]
  ∧ Forall (λ code, is_valid_national_id (Some code)
                    = Returns (false, Some (py "all_same_digits"), Some code))
      ((λ i, str_mul (str_of_nat i) 10) <$> seq 0 10)
  ∧ (∀ x log,
       let norm := normalize_national_id x in
       is_valid_national_id_in printing (recorded _checksum_ok) x log
       = (is_valid_national_id x,
          if bool_decide (length norm = 10%nat)
             && negb (bool_decide (norm ∈ _INVALID_SAME_DIGITS))
          then log ++ [norm] else log)).
Proof.
  split; [|split].
  - repeat constructor.
    all: try (intros checksum_ok; rewrite is_valid_national_id_with_cases; by vm_compute).
    all: intros checksum_ok log; rewrite is_valid_national_id_in_printing_cases;
      by vm_compute.
  - cbn [seq fmap list_fmap]. unfold is_valid_national_id.
    repeat constructor; rewrite is_valid_national_id_with_cases; by vm_compute.
  - intros x log. cbv zeta.
    rewrite is_valid_national_id_in_printing_cases, is_valid_national_id_spec.
    unfold spec_validate. cbv zeta.
    destruct (bool_decide (normalize_national_id x = [])) eqn:Hnil.
    { apply bool_decide_eq_true_1 in Hnil. by rewrite Hnil. }
    destruct (bool_decide (length (normalize_national_id x) = 10%nat)) eqn:Hlen;
      cbn [negb andb]; [|done].
    destruct (bool_decide (normalize_national_id x ∈ _INVALID_SAME_DIGITS));
      cbn [negb]; [done|].
    apply bool_decide_eq_true_1 in Hlen. unfold recorded.
    rewrite (_checksum_ok_latin _ Hlen (normalize_latin x)).
    by destruct (check_digit_matches _).
Qed.

(** C4: on every normalized input that passes the 10-digit pattern the
    checksum computation returns, and no input makes validation return
    the reason 'checksum_error'. *)
Theorem checksum_error_unreachable x :
  (_RE_10_DIGITS_match (normalize_national_id x) = true →
     ∃ b, _checksum_ok (normalize_national_id x) = Returns b)
  ∧ (∀ ok norm, is_valid_national_id x ≠ Returns (ok, Some (py "checksum_error"), norm)).
Proof.
  split.
  - rewrite (_RE_10_DIGITS_match_latin _ (normalize_latin x)).
    intros Hlen%bool_decide_eq_true_1.
    eexists. apply _checksum_ok_latin; [done | apply normalize_latin].
  - intros ok norm. rewrite is_valid_national_id_spec. intros [= Hr].
    apply (spec_validate_not_checksum_error x). by rewrite Hr.
Qed.

(** C7: validation returns a result for every input and never raises;
    for an absent and for an empty input the result is
    (false, 'empty', absent). *)
Theorem validate_never_raises :
  (∀ x, ∃ ok reason norm, is_valid_national_id x = Returns (ok, reason, norm))
  ∧ is_valid_national_id None = Returns (false, Some (py "empty"), None)
  ∧ is_valid_national_id (Some (py "")) = Returns (false, Some (py "empty"), None).
Proof.
  split; [|split].
  - intros x. rewrite is_valid_national_id_spec.
    destruct (spec_validate x) as [[ok reason] norm]. eauto.
  - done.
  - done.
Qed.

(** C8: when validation succeeds, [validate_or_raise] returns the
    normalized code; when it fails, [validate_or_raise] raises a
    ValueError whose message contains the failure reason and the
    normalized code (rendered as None when there is none); on
    "1234567890" the message contains "checksum" and "1234567890". *)
Theorem validate_or_raise_spec :
  (∀ x reason norm,
     is_valid_national_id x = Returns (true, reason, norm) →
     validate_or_raise x = Returns norm ∧ norm = Some (normalize_national_id x))
  ∧ (∀ x reason norm,
       is_valid_national_id x = Returns (false, reason, norm) →
       ∃ r msg, reason = Some r
                ∧ validate_or_raise x = Raises (ValueError msg)
                ∧ occurs_in r msg
                ∧ occurs_in (format_opt norm) msg
                ∧ (∀ n, norm = Some n → occurs_in n msg))
  ∧ (∃ msg, validate_or_raise (Some (py "1234567890")) = Raises (ValueError msg)
            ∧ occurs_in (py "checksum") msg
            ∧ occurs_in (py "1234567890") msg).
Proof.
  assert (∀ x reason norm,
            is_valid_national_id x = Returns (false, reason, norm) →
            ∃ r, reason = Some r
                 ∧ validate_or_raise x
                   = Raises (ValueError (py "Invalid national id: reason=" ++ r
                                         ++ py ", normalized=" ++ format_opt norm)))
    as Hfail.
  { intros x reason norm Hx. unfold validate_or_raise. rewrite Hx.
    rewrite is_valid_national_id_spec in Hx. injection Hx as Hx.
    pose proof (spec_validate_reason_iff x) as [_ Hr]. rewrite Hx in Hr.
    cbn [fst snd] in Hr. destruct Hr as [r ->]; [done|]. by exists r. }
  split; [|split].
  - intros x reason norm Hx. unfold validate_or_raise. rewrite Hx.
    split; [done|]. rewrite is_valid_national_id_spec in Hx. injection Hx as Hx.
    destruct (spec_validate_valid x) as [Hv _]; [by rewrite Hx|].
    rewrite Hv in Hx. by simplify_eq.
  - intros x reason norm Hx. destruct (Hfail x reason norm Hx) as (r & -> & Hmsg).
    eexists r, _. split; [done|]. split; [exact Hmsg|].
    assert (occurs_in (format_opt norm)
              (py "Invalid national id: reason=" ++ r
               ++ py ", normalized=" ++ format_opt norm)) as Hnorm.
    { exists (py "Invalid national id: reason=" ++ r ++ py ", normalized="), [].
      by rewrite app_nil_r, <- !app_assoc. }
    split; [|split].
    + by exists (py "Invalid national id: reason="), (py ", normalized=" ++ format_opt norm).
    + exact Hnorm.
    + by intros n ->.
  - eexists. split; [|split].
    + unfold validate_or_raise. rewrite is_valid_national_id_spec. by vm_compute.
    + by exists (py "Invalid national id: reason="), (py ", normalized=1234567890").
    + by exists (py "Invalid national id: reason=checksum, normalized="), [].
Qed.

(** C9: "0499370899" is valid with normalized code "0499370899"; its
    Persian-glyph form normalizes to "0499370899" and validates to the
    same result. *)
Theorem known_valid_code :
  is_valid_national_id (Some (py "0499370899"))
  = Returns (true, None, Some (py "0499370899"))
  ∧ normalize_national_id (Some persian_0499370899) = py "0499370899"
  ∧ is_valid_national_id (Some persian_0499370899)
    = Returns (true, None, Some (py "0499370899")).
Proof.
  rewrite !is_valid_national_id_spec. repeat split; by vm_compute.
Qed.

(** C10: the normalized code of a successful validation is a string of
    exactly 10 latin digits, a fixed point of normalisation, and is
    itself valid with the same normalized code; what
    [validate_or_raise] returns is accepted by [is_valid_national_id]
    and by [validate_or_raise]. *)
Theorem success_revalidates x :
  (∀ reason n,
     is_valid_national_id x = Returns (true, reason, Some n) →
     length n = 10%nat ∧ Forall is_latin_digit n
     ∧ normalize_national_id (Some n) = n
     ∧ is_valid_national_id (Some n) = Returns (true, None, Some n))
  ∧ (∀ norm,
       validate_or_raise x = Returns norm →
       ∃ n, norm = Some n
            ∧ is_valid_national_id (Some n) = Returns (true, None, Some n)
            ∧ validate_or_raise (Some n) = Returns (Some n)).
Proof.
  assert (∀ reason norm,
            is_valid_national_id x = Returns (true, reason, norm) →
            norm = Some (normalize_national_id x)
            ∧ length (normalize_national_id x) = 10%nat
            ∧ is_valid_national_id (Some (normalize_national_id x))
              = Returns (true, None, Some (normalize_national_id x)))
    as Hok.
  { intros reason norm Hx. rewrite is_valid_national_id_spec in Hx. injection Hx as Hx.
    assert ((spec_validate x).1.1 = true) as Hflag by by rewrite Hx.
    destruct (spec_validate_valid x Hflag) as (Hv & Hlen & _).
    rewrite Hv in Hx. simplify_eq. split; [done|]. split; [done|].
    rewrite is_valid_national_id_spec. f_equal. by apply spec_validate_revalidate. }
  split.
  - intros reason n Hx. destruct (Hok _ _ Hx) as ([= ->] & Hlen & Hre).
    split; [done|]. split; [apply normalize_latin|].
    split; [apply normalize_fixed, normalize_latin | done].
  - intros norm Hraise. unfold validate_or_raise in Hraise.
    destruct (is_valid_national_id x) as [[[ok reason] norm']|e] eqn:Hx; [|done].
    cbn in Hraise. destruct ok; [|done]. injection Hraise as ->.
    destruct (Hok _ _ eq_refl) as (-> & Hlen & Hre).
    eexists. split; [done|]. split; [done|].
    unfold validate_or_raise. by rewrite Hre.
Qed.

End Claims.

(** *** The check digit at the boundary: R = 0, R = 1 and R >= 2 *)

Example checksum_remainder_0 :
  weighted_sum (digit_value <$> py "0000000000") = 0%Z
  ∧ @_checksum_ok three_script_unicode (py "0000000000") = Returns true.
Proof. split; by vm_compute. Qed.

Example checksum_remainder_1 :
  (weighted_sum (digit_value <$> py "1000000011") `mod` 11 = 1)%Z
  ∧ @_checksum_ok three_script_unicode (py "1000000011") = Returns true
  ∧ @_checksum_ok three_script_unicode (py "1000000010") = Returns false.
Proof. repeat split; by vm_compute. Qed.

Example checksum_remainder_2 :
  (weighted_sum (digit_value <$> py "0499370899") `mod` 11 = 2)%Z
  ∧ expected_check_digit (digit_value <$> py "0499370899") = 9%Z
  ∧ @_checksum_ok three_script_unicode (py "0499370899") = Returns true.
Proof. repeat split; by vm_compute. Qed.

(** Outside the pipeline the verifier can raise: a code that the pattern
    accepts through its end-of-line rule, and a code that is too short. *)
Example checksum_raises_outside_gate :
  @_RE_10_DIGITS_match three_script_unicode (py "0499370899" ++ [10]) = true
  ∧ (∃ msg, @_checksum_ok three_script_unicode (py "0499370899" ++ [10])
            = Raises (ValueError msg))
  ∧ @_checksum_ok three_script_unicode (py "049937089") = Raises IndexError.
Proof. split; [by vm_compute|]. split; [eexists|]; by vm_compute. Qed.

(** *** The claims at concrete inputs

    The theorems above are instantiated at the table [three_script_unicode]
    and at concrete codes. *)

Lemma checksum_verifier_correct_witness :
  length (py "0499370899") = 10%nat
  ∧ Forall is_latin_digit (py "0499370899")
  ∧ @_checksum_ok three_script_unicode (py "0499370899") = Returns true.
Proof.
  assert (Forall is_latin_digit (py "0499370899")) as Hdigits.
  { apply (bool_decide_unpack _). vm_compute. exact I. }
  split; [reflexivity|]. split; [exact Hdigits|].
  exact (proj1 (@checksum_verifier_correct three_script_unicode)
           (py "0499370899") eq_refl Hdigits).
Defined.

Lemma checksum_error_unreachable_witness :
  @_RE_10_DIGITS_match three_script_unicode
     (normalize_national_id (Some (py "1234567890"))) = true
  ∧ ∃ b, @_checksum_ok three_script_unicode
           (normalize_national_id (Some (py "1234567890"))) = Returns b.
Proof.
  assert (@_RE_10_DIGITS_match three_script_unicode
            (normalize_national_id (Some (py "1234567890"))) = true) as Hmatch.
  { vm_compute. reflexivity. }
  split; [exact Hmatch|].
  exact (proj1 (@checksum_error_unreachable three_script_unicode
                  (Some (py "1234567890"))) Hmatch).
Defined.

Lemma normalize_maps_digit_glyphs_witness :
  3 < 10 ∧ normalize_national_id (Some [0x6F0 + 3]) = [48 + 3].
Proof.
  split; [reflexivity|].
  exact (proj1 (proj1 (proj2 (proj2 normalize_maps_digit_glyphs)) 3 eq_refl)).
Defined.

Lemma normalize_idempotent_witness :
  Forall is_latin_digit (py "0499370899")
  ∧ normalize_national_id (Some (py "0499370899")) = py "0499370899".
Proof.
  assert (Forall is_latin_digit (py "0499370899")) as Hdigits.
  { apply (bool_decide_unpack _). vm_compute. exact I. }
  split; [exact Hdigits|].
  exact (proj2 normalize_idempotent (py "0499370899") Hdigits).
Defined.

Lemma validate_or_raise_spec_witness :
  @is_valid_national_id three_script_unicode (Some (py "0499370899"))
  = Returns (true, None, Some (py "0499370899"))
  ∧ @validate_or_raise three_script_unicode (Some (py "0499370899"))
    = Returns (Some (py "0499370899")).
Proof.
  assert (@is_valid_national_id three_script_unicode (Some (py "0499370899"))
          = Returns (true, None, Some (py "0499370899"))) as Hvalid.
  { vm_compute. reflexivity. }
  split; [exact Hvalid|].
  exact (proj1 (proj1 (@validate_or_raise_spec three_script_unicode)
                  (Some (py "0499370899")) None (Some (py "0499370899")) Hvalid)).
Defined.

Lemma success_revalidates_witness :
  @is_valid_national_id three_script_unicode (Some persian_0499370899)
  = Returns (true, None, Some (py "0499370899"))
  ∧ length (py "0499370899") = 10%nat
  ∧ @is_valid_national_id three_script_unicode (Some (py "0499370899"))
    = Returns (true, None, Some (py "0499370899")).
Proof.
  assert (@is_valid_national_id three_script_unicode (Some persian_0499370899)
          = Returns (true, None, Some (py "0499370899"))) as Hvalid.
  { vm_compute. reflexivity. }
  split; [exact Hvalid|].
  pose proof (proj1 (@success_revalidates three_script_unicode (Some persian_0499370899))
                None (py "0499370899") Hvalid) as (Hlen & _ & _ & Hre).
  split; [exact Hlen | exact Hre].
Defined.


(** ** Further properties of the module *)

(** *** Normalisation *)

Lemma spec_latin_digit_None c : spec_latin_digit c = None ↔ ¬ is_digit_glyph c.
Proof.
  unfold spec_latin_digit, is_digit_glyph. repeat case_decide; split; try done; tauto.
Qed.

Lemma length_omap_le {A B} (f : A → option B) (l : list A) :
  (length (omap f l) ≤ length l)%nat.
Proof.
  induction l as [|a l IH]; [done|]. cbn [omap list_omap].
  destruct (f a); cbn [length]; lia.
Qed.

Lemma omap_nil_iff {A B} (f : A → option B) (l : list A) :
  omap f l = [] ↔ Forall (λ a, f a = None) l.
Proof.
  induction l as [|a l IH]; [done|]. cbn [omap list_omap].
  rewrite Forall_cons. destruct (f a) eqn:Hf; [|by rewrite IH; intuition].
  split; [done | by intros [[=] _]].
Qed.

(** X1: the normal form holds latin digits only and is never longer than
    the text it was computed from; the normal form of no text is empty. *)
Theorem normalize_output_shape :
  normalize_national_id None = []
  ∧ ∀ s, Forall is_latin_digit (normalize_national_id (Some s))
         ∧ (length (normalize_national_id (Some s)) ≤ length s)%nat.
Proof.
  split; [done|]. intros s. split; [apply normalize_latin|].
  rewrite normalize_omap. apply length_omap_le.
Qed.

Section MoreValidatorProperties.
Context `{U : PyUnicode}.

Lemma is_valid_national_id_empty_iff x :
  is_valid_national_id x = Returns (false, Some (py "empty"), None)
  ↔ normalize_national_id x = [].
Proof.
  rewrite is_valid_national_id_spec. unfold spec_validate. cbv zeta. split.
  - case_bool_decide as Hnil; [done|]. intros [= Heq]. revert Heq.
    repeat case_match; by intros [=].
  - intros ->. done.
Qed.

(** X2: validation answers 'empty', with no normalized code, exactly when
    the input is absent or holds no digit of the three scripts. *)
Theorem empty_reason_iff x :
  is_valid_national_id x = Returns (false, Some (py "empty"), None)
  ↔ match x with
    | None => True
    | Some s => Forall (λ c, ¬ is_digit_glyph c) s
    end.
Proof.
  rewrite is_valid_national_id_empty_iff. destruct x as [s|]; [|done].
  rewrite normalize_omap, omap_nil_iff.
  apply Forall_iff. intros c. apply spec_latin_digit_None.
Qed.

Lemma normal_form_decides x y :
  normalize_national_id x = normalize_national_id y →
  is_valid_national_id x = is_valid_national_id y.
Proof.
  intros Heq. rewrite !is_valid_national_id_spec. unfold spec_validate. by rewrite Heq.
Qed.

(** X3: two inputs with the same normal form get the same answer from
    [is_valid_national_id], [validate_or_raise] and [is_valid]. *)
Theorem validation_depends_on_normal_form x y :
  normalize_national_id x = normalize_national_id y →
  is_valid_national_id x = is_valid_national_id y
  ∧ validate_or_raise x = validate_or_raise y
  ∧ is_valid x = is_valid y.
Proof.
  intros Heq%normal_form_decides. unfold validate_or_raise, is_valid. by rewrite Heq.
Qed.

(** X4: a character that is not a digit of the three scripts (a space, a
    dash, a letter), anywhere in the text, changes neither the normal
    form nor the answer of the validation. *)
Theorem separators_ignored s1 c s2 :
  ¬ is_digit_glyph c →
  normalize_national_id (Some (s1 ++ c :: s2)) = normalize_national_id (Some (s1 ++ s2))
  ∧ is_valid_national_id (Some (s1 ++ c :: s2)) = is_valid_national_id (Some (s1 ++ s2)).
Proof.
  intros Hc%spec_latin_digit_None.
  assert (normalize_national_id (Some (s1 ++ c :: s2))
          = normalize_national_id (Some (s1 ++ s2))) as Heq.
  { rewrite !normalize_omap, !omap_app. cbn [omap list_omap]. by rewrite Hc. }
  split; [exact Heq | by apply normal_form_decides].
Qed.

(** X5: a number spelled with Persian-script or with Arabic-script digits
    gets the same answer as the same number spelled with latin digits. *)
Theorem script_insensitive (ds : list N) :
  Forall (λ k, k < 10) ds →
  is_valid_national_id (Some ((λ k, 0x6F0 + k) <$> ds))
  = is_valid_national_id (Some ((λ k, 48 + k) <$> ds))
  ∧ is_valid_national_id (Some ((λ k, 0x660 + k) <$> ds))
    = is_valid_national_id (Some ((λ k, 48 + k) <$> ds)).
Proof.
  intros Hds.
  assert (∀ base, base = 0x6F0 ∨ base = 0x660 ∨ base = 48 →
            normalize_national_id (Some ((λ k, base + k) <$> ds)) = (λ k, 48 + k) <$> ds)
    as Hnorm.
  { intros base Hbase. rewrite normalize_omap.
    induction Hds as [|k ds Hk _ IH]; [done|].
    rewrite !fmap_cons. cbn [omap list_omap]. rewrite IH.
    assert (spec_latin_digit (base + k) = Some (48 + k)) as ->; [|done].
    unfold spec_latin_digit, is_latin_digit.
    destruct Hbase as [-> | [-> | ->]].
    - rewrite decide_True by lia. f_equal. lia.
    - rewrite decide_False by lia. rewrite decide_True by lia. f_equal. lia.
    - rewrite !decide_False by lia. by rewrite decide_True by lia. }
  split; apply normal_form_decides; rewrite !Hnorm; auto.
Qed.

End MoreValidatorProperties.

(** *** The checksum verifier on arbitrary strings *)

Lemma weighted_sum_take n (d : list Z) :
  (9 ≤ n)%nat → weighted_sum (take n d) = weighted_sum d.
Proof.
  intros Hn. unfold weighted_sum. f_equal. apply Forall_fmap_ext, Forall_forall.
  intros i Hi%elem_of_seq. by rewrite lookup_total_take_lt by lia.
Qed.

Lemma expected_check_digit_take n (d : list Z) :
  (9 ≤ n)%nat → expected_check_digit (take n d) = expected_check_digit d.
Proof. intros Hn. unfold expected_check_digit. by rewrite weighted_sum_take. Qed.

Lemma expected_check_digit_range (d : list Z) :
  (0 ≤ expected_check_digit d ≤ 9)%Z.
Proof.
  unfold expected_check_digit. cbv zeta.
  pose proof (Z.mod_pos_bound (weighted_sum d) 11) as Hmod.
  case_bool_decide; lia.
Qed.

(** Without the bounds check of the list subscript the loop cannot go on. *)
Lemma for_each_index_error (digits : list Z) (w : nat → Z) range acc :
  ¬ Forall (λ i, i < length digits)%nat range →
  for_each range (λ i s, d ← getitem digits i; mret (s + d * w i)%Z) acc
  = Raises IndexError.
Proof.
  revert acc. induction range as [|i range IH]; intros acc Hrange.
  { destruct Hrange. constructor. }
  cbn [for_each]. destruct (decide (i < length digits)%nat) as [Hi|Hi].
  - rewrite (getitem_lt digits i Hi). cbn [mbind outcome_bind mret outcome_ret].
    apply IH. intros Hrest. apply Hrange. by constructor.
  - unfold getitem. by rewrite lookup_ge_None_2 by lia.
Qed.

Section ChecksumOnAnyString.
Context `{U : PyUnicode}.

Lemma int_of_char_decimal c :
  is_Some (py_decimal c) → int_of_char c = Returns (decimal_value c).
Proof. intros [d Hd]. unfold int_of_char, decimal_value. by rewrite Hd. Qed.

Lemma int_of_char_raises c :
  ¬ is_Some (py_decimal c) → ∃ msg, int_of_char c = Raises (ValueError msg).
Proof.
  intros Hc. unfold int_of_char. destruct (py_decimal c); [|by eexists].
  destruct Hc. by eexists.
Qed.

Lemma mapM_int_of_char_decimal code :
  Forall (λ c, is_Some (py_decimal c)) code →
  mapM int_of_char code = Returns (decimal_value <$> code).
Proof.
  induction 1 as [|c code Hc _ IH]; [done|].
  cbn [mapM]. rewrite (int_of_char_decimal c Hc).
  cbn [mbind outcome_bind]. by rewrite IH.
Qed.

Lemma mapM_int_of_char_raises code :
  ¬ Forall (λ c, is_Some (py_decimal c)) code →
  ∃ msg, mapM int_of_char code = Raises (ValueError msg).
Proof.
  induction code as [|c code IH]; intros Hcode.
  { destruct Hcode. constructor. }
  cbn [mapM]. destruct (decide (is_Some (py_decimal c))) as [Hc|Hc].
  - rewrite (int_of_char_decimal c Hc). cbn [mbind outcome_bind].
    destruct IH as [msg ->]; [|by eexists].
    intros Hrest. apply Hcode. by constructor.
  - destruct (int_of_char_raises c Hc) as [msg ->]. by eexists.
Qed.

Lemma _checksum_ok_decimal code :
  Forall (λ c, is_Some (py_decimal c)) code → (10 ≤ length code)%nat →
  _checksum_ok code
  = Returns (bool_decide ((decimal_value <$> code) !!! 9%nat
                          = expected_check_digit (decimal_value <$> code))).
Proof.
  intros Hcode Hlen. unfold _checksum_ok.
  rewrite (mapM_int_of_char_decimal code Hcode). cbn [mbind outcome_bind].
  assert (length (decimal_value <$> code) = length code) as Hd by apply length_fmap.
  rewrite (for_each_sum (decimal_value <$> code) (λ i, 10 - Z.of_nat i)%Z).
  2:{ apply Forall_forall. intros i Hi%elem_of_seq. lia. }
  cbn [mbind outcome_bind]. rewrite getitem_lt by lia. cbn [mbind outcome_bind].
  unfold expected_check_digit. fold (weighted_sum (decimal_value <$> code)).
  rewrite Z.add_0_l. cbv zeta. by case_bool_decide.
Qed.

Lemma _checksum_ok_short code :
  Forall (λ c, is_Some (py_decimal c)) code → (length code < 10)%nat →
  _checksum_ok code = Raises IndexError.
Proof.
  intros Hcode Hlen. unfold _checksum_ok.
  rewrite (mapM_int_of_char_decimal code Hcode). cbn [mbind outcome_bind].
  assert (length (decimal_value <$> code) = length code) as Hd by apply length_fmap.
  destruct (decide (length code < 9)%nat) as [Hlt|Hge].
  - rewrite for_each_index_error; [done|].
    rewrite Forall_forall. intros Hall.
    specialize (Hall (length code)). rewrite elem_of_seq in Hall. lia.
  - rewrite (for_each_sum (decimal_value <$> code) (λ i, 10 - Z.of_nat i)%Z).
    2:{ apply Forall_forall. intros i Hi%elem_of_seq. lia. }
    cbn [mbind outcome_bind]. unfold getitem. by rewrite lookup_ge_None_2 by lia.
Qed.

(** X6: how [_checksum_ok] ends on an arbitrary string. It returns only on
    a string of at least 10 decimal digits; it raises ValueError exactly
    when some character is not a decimal digit, and IndexError exactly
    when all characters are decimal digits but there are fewer than 10. *)
Theorem checksum_outcome code :
  match _checksum_ok code with
  | Returns _ => Forall (λ c, is_Some (py_decimal c)) code ∧ (10 ≤ length code)%nat
  | Raises (ValueError _) => ¬ Forall (λ c, is_Some (py_decimal c)) code
  | Raises IndexError => Forall (λ c, is_Some (py_decimal c)) code ∧ (length code < 10)%nat
  | Raises _ => False
  end.
Proof.
  destruct (decide (Forall (λ c, is_Some (py_decimal c)) code)) as [Hcode|Hcode].
  - destruct (decide (10 ≤ length code)%nat) as [Hlen|Hlen].
    + by rewrite _checksum_ok_decimal.
    + rewrite _checksum_ok_short by (done || lia). split; [done | lia].
  - destruct (mapM_int_of_char_raises code Hcode) as [msg Hmsg].
    unfold _checksum_ok. by rewrite Hmsg.
Qed.

(** X7: on a string of at least 10 decimal digits (of any script)
    [_checksum_ok] returns whether the tenth digit is the expected check
    digit of the first nine; the characters after the tenth do not change
    the answer. *)
Theorem checksum_on_decimal_digits code :
  Forall (λ c, is_Some (py_decimal c)) code → (10 ≤ length code)%nat →
  _checksum_ok code
  = Returns (bool_decide ((decimal_value <$> code) !!! 9%nat
                          = expected_check_digit (decimal_value <$> take 9 code)))
  ∧ _checksum_ok code = _checksum_ok (take 10 code).
Proof.
  intros Hcode Hlen.
  rewrite (_checksum_ok_decimal code Hcode Hlen).
  rewrite (_checksum_ok_decimal (take 10 code)).
  2:{ by apply Forall_take. }
  2:{ rewrite length_take. lia. }
  rewrite !fmap_take, lookup_total_take_lt by lia.
  by rewrite !expected_check_digit_take by lia.
Qed.

(** X8: every prefix of 9 latin digits has exactly one check digit: one
    latin digit that, appended to the prefix, passes [_checksum_ok]. *)
Theorem check_digit_unique prefix :
  length prefix = 9%nat → Forall is_latin_digit prefix →
  ∃ c, is_latin_digit c
       ∧ ∀ c', is_latin_digit c' → (_checksum_ok (prefix ++ [c']) = Returns true ↔ c' = c).
Proof.
  intros Hlen Hprefix.
  pose proof (expected_check_digit_range (digit_value <$> prefix)) as Hrange.
  exists (Z.to_N (expected_check_digit (digit_value <$> prefix) + 48)).
  split; [unfold is_latin_digit; lia|]. intros c' Hc'.
  rewrite _checksum_ok_latin.
  2:{ rewrite length_app. cbn. lia. }
  2:{ apply Forall_app. split; [done | by constructor]. }
  unfold check_digit_matches. cbv zeta. rewrite fmap_app.
  rewrite lookup_total_app_r by (rewrite length_fmap; lia).
  rewrite length_fmap, Hlen. cbn [fmap list_fmap]. rewrite Nat.sub_diag.
  change ([digit_value c'] !!! 0%nat) with (digit_value c').
  rewrite <- (expected_check_digit_take 9 (_ ++ _)) by done.
  rewrite take_app_length' by (by rewrite length_fmap).
  unfold is_latin_digit in Hc'. split.
  - intros [= Hmatch]. apply bool_decide_eq_true_1 in Hmatch.
    unfold digit_value at 1 in Hmatch. lia.
  - intros ->. f_equal. apply bool_decide_eq_true_2.
    unfold digit_value at 1. lia.
Qed.

End ChecksumOnAnyString.

(** *** The set of repeated digits *)

Lemma same_digits_elem code :
  code ∈ _INVALID_SAME_DIGITS → ∃ c, is_latin_digit c ∧ code = replicate 10 c.
Proof.
  unfold _INVALID_SAME_DIGITS. rewrite elem_of_list_to_set.
  intros Hin. vm_compute in Hin.
  repeat (apply elem_of_cons in Hin as [->|Hin];
          [match goal with
           | |- ∃ c, _ ∧ (?x :: _) = _ => exists x
           end; split; [unfold is_latin_digit; lia | reflexivity]|]).
  by apply elem_of_nil in Hin.
Qed.

Lemma same_digits_intro c :
  is_latin_digit c → replicate 10 c ∈ _INVALID_SAME_DIGITS.
Proof.
  intros Hc.
  assert (c ∈ N.of_nat <$> seq 48 10) as Hin.
  { apply list_elem_of_fmap. exists (N.to_nat c). unfold is_latin_digit in Hc.
    split; [lia|]. apply elem_of_seq. lia. }
  vm_compute in Hin.
  repeat (apply elem_of_cons in Hin as [->|Hin];
          [apply (bool_decide_unpack _); vm_compute; exact I|]).
  by apply elem_of_nil in Hin.
Qed.

(** X9: [_INVALID_SAME_DIGITS] holds exactly the strings made of one latin
    digit written ten times. *)
Theorem same_digits_iff code :
  code ∈ _INVALID_SAME_DIGITS ↔ ∃ c, is_latin_digit c ∧ code = replicate 10 c.
Proof.
  split; [apply same_digits_elem|]. intros (c & Hc & ->). by apply same_digits_intro.
Qed.

(** Two results with different reasons are different. *)
Ltac distinct_results :=
  let H := fresh in
  intros H;
  apply (f_equal (λ r : bool * option (list N) * option (list N),
                    length (default [] r.1.2))) in H;
  lazy in H; discriminate H.

Ltac spec_validate_props :=
  repeat match goal with
         | H : bool_decide _ = true |- _ => apply bool_decide_eq_true_1 in H
         | H : bool_decide _ = false |- _ => apply bool_decide_eq_false_1 in H
         end.

Lemma same_digits_length code : code ∈ _INVALID_SAME_DIGITS → length code = 10%nat.
Proof. intros (c & _ & ->)%same_digits_elem. apply length_replicate. Qed.

Lemma spec_validate_length x :
  spec_validate x
  = (false, Some (py "length_or_not_digits"), Some (normalize_national_id x))
  ↔ normalize_national_id x ≠ [] ∧ length (normalize_national_id x) ≠ 10%nat.
Proof.
  spec_validate_cases x; spec_validate_props.
  - split; [distinct_results | intros [? _]; contradiction].
  - split; [distinct_results | intros [_ ?]; contradiction].
  - split; [distinct_results | intros [_ ?]; contradiction].
  - split; [distinct_results | intros [_ ?]; contradiction].
  - split; [intros _; by split | reflexivity].
Qed.

Lemma spec_validate_same x :
  spec_validate x
  = (false, Some (py "all_same_digits"), Some (normalize_national_id x))
  ↔ normalize_national_id x ∈ _INVALID_SAME_DIGITS.
Proof.
  spec_validate_cases x; spec_validate_props.
  - split; [distinct_results|]. intros Hlen%same_digits_length.
    by destruct (normalize_national_id x).
  - split; [intros _; assumption | reflexivity].
  - split; [distinct_results | intros ?; contradiction].
  - split; [distinct_results | intros ?; contradiction].
  - split; [distinct_results|]. intros Hlen%same_digits_length. contradiction.
Qed.

Lemma spec_validate_true x :
  spec_validate x = (true, None, Some (normalize_national_id x))
  ↔ length (normalize_national_id x) = 10%nat
    ∧ (normalize_national_id x ∉ _INVALID_SAME_DIGITS)
    ∧ check_digit_matches (normalize_national_id x) = true.
Proof.
  spec_validate_cases x; spec_validate_props.
  - split; [discriminate|]. intros [Hlen _]. by destruct (normalize_national_id x).
  - split; [discriminate | intros (_ & ? & _); contradiction].
  - split; [intros _; by repeat split | reflexivity].
  - split; [discriminate | intros (_ & _ & ?); discriminate].
  - split; [discriminate | intros [? _]; contradiction].
Qed.

Section Verdicts.
Context `{U : PyUnicode}.

(** X10: every string of [_INVALID_SAME_DIGITS] passes the checksum
    verifier, so it is the membership test alone that rejects them. *)
Theorem repeated_digits_pass_checksum code :
  code ∈ _INVALID_SAME_DIGITS → _checksum_ok code = Returns true.
Proof.
  unfold _INVALID_SAME_DIGITS. rewrite elem_of_list_to_set.
  intros Hin. vm_compute in Hin.
  repeat (apply elem_of_cons in Hin as [->|Hin];
          [rewrite _checksum_ok_latin;
           [ by vm_compute | reflexivity
           | apply (bool_decide_unpack _); vm_compute; exact I ]|]).
  by apply elem_of_nil in Hin.
Qed.

(** X11: the structural answers. With n the normal form of the input:
    'length_or_not_digits' exactly when n is nonempty and not of length
    10; 'all_same_digits' exactly when n is a digit repeated ten times;
    valid exactly when n has length 10, is not a repeated digit and its
    tenth digit is the expected check digit. *)
Theorem verdict_table x :
  let n := normalize_national_id x in
  let d := digit_value <$> n in
  (is_valid_national_id x = Returns (false, Some (py "length_or_not_digits"), Some n)
     ↔ n ≠ [] ∧ length n ≠ 10%nat)
  ∧ (is_valid_national_id x = Returns (false, Some (py "all_same_digits"), Some n)
     ↔ ∃ c, is_latin_digit c ∧ n = replicate 10 c)
  ∧ (is_valid_national_id x = Returns (true, None, Some n)
     ↔ length n = 10%nat ∧ (¬ ∃ c, n = replicate 10 c)
       ∧ d !!! 9%nat = expected_check_digit d).
Proof.
  cbv zeta. rewrite is_valid_national_id_spec.
  assert (normalize_national_id x ∈ _INVALID_SAME_DIGITS
          ↔ ∃ c, normalize_national_id x = replicate 10 c) as Hsame.
  { split; [intros (c & _ & ?)%same_digits_elem; eauto|].
    intros [c Hc]. rewrite Hc. apply same_digits_intro.
    pose proof (normalize_latin x) as Hl. rewrite Hc in Hl.
    by apply Forall_cons in Hl as [? _]. }
  assert (∀ r, Returns (spec_validate x) = Returns r ↔ spec_validate x = r) as Hret.
  { intros r. split; [by intros [= ?] | by intros ->]. }
  rewrite !Hret. split; [apply spec_validate_length|]. split.
  - rewrite spec_validate_same. split; [apply same_digits_elem|].
    intros (c & Hc & ->). by apply same_digits_intro.
  - rewrite spec_validate_true, Hsame. unfold check_digit_matches.
    by rewrite bool_decide_eq_true.
Qed.

End Verdicts.

(** *** The boolean entry point and the command line *)


Section EntryPoints.
Context `{U : PyUnicode}.

(** X12: [is_valid] never raises, and its answer tells what
    [validate_or_raise] does: it is true exactly when
    [validate_or_raise] returns (then the normal form of the input), and
    false exactly when [validate_or_raise] raises a ValueError. *)
Theorem is_valid_agrees x :
  ∃ ok, is_valid x = Returns ok
        ∧ (ok = true ↔ validate_or_raise x = Returns (Some (normalize_national_id x)))
        ∧ (ok = false ↔ ∃ msg, validate_or_raise x = Raises (ValueError msg)).
Proof.
  unfold is_valid, validate_or_raise. rewrite is_valid_national_id_spec.
  pose proof (spec_validate_valid x) as Hvalid.
  destruct (spec_validate x) as [[ok reason] norm]. cbn [fst snd] in Hvalid.
  exists ok. split; [done|]. cbn [mbind outcome_bind mret outcome_ret].
  destruct ok.
  - destruct Hvalid as [[= _ ->] _]; [done|]. split; [done|].
    split; [done | by intros [? ?]].
  - split; [done|]. split; [by eexists | done].
Qed.

End EntryPoints.


Section CommandLineProperties.
Context `{U : PyUnicode} `{O : Stdout}.

(** What [print_lines] writes is a prefix of what it was given: all of it
    when no [print] raised, and otherwise what came before the string on
    which [print] raised. *)
Lemma print_lines_spec lines out :
  ∃ printed,
    (print_lines lines out).2 = out ++ printed
    ∧ printed `prefix_of` lines
    ∧ match (print_lines lines out).1 with
      | None => printed = lines
      | Some e => ∃ line, lines !! length printed = Some line
                          ∧ print_failure (out ++ printed) line = Some e
      end.
Proof.
  revert out. induction lines as [|line lines IH]; intros out; cbn [print_lines].
  { exists []. by rewrite app_nil_r. }
  destruct (print_failure out line) as [e|] eqn:Hfail.
  - exists []. rewrite app_nil_r. cbn [fst snd length].
    split; [done|]. split; [apply prefix_nil|]. by exists line.
  - destruct (IH (out ++ [line])) as (printed & Hout & Hprefix & Hend).
    exists (line :: printed). rewrite Hout, <- app_assoc. split; [done|].
    split; [by apply prefix_cons|].
    destruct (print_lines lines (out ++ [line])).1 as [e|]; [|by rewrite Hend].
    destruct Hend as (l & Hl & Hfl). exists l. split; [done|].
    by rewrite <- app_assoc in Hfl.
Qed.

(** The loop of [_cli_main]: the lines of the arguments are printed in
    order until [print] raises; the exit code stays as it was while the
    arguments are valid and is 1 after the first invalid one. *)
Lemma cli_loop args exit_code out :
  for_each_arg args
    (λ code exit_code,
       '(ok, reason, norm) ← silent (is_valid_national_id (Some code));
       if ok : bool
       then
         _ ← print (py "VALID  -> " ++ code ++ py "  normalized: " ++ format_opt norm);
         mret exit_code
       else
         _ ← print (py "INVALID -> " ++ code ++ py "  reason: " ++ format_opt reason
                    ++ py "  normalized: " ++ format_opt norm);
         mret 1%Z)
    exit_code out
  = match print_lines (report_line <$> args) out with
    | (None, out') =>
        (Returns (if forallb (λ a, (spec_validate (Some a)).1.1) args
                  then exit_code else 1%Z), out')
    | (Some e, out') => (Raises e, out')
    end.
Proof.
  revert exit_code out. induction args as [|a args IH]; intros exit_code out; [done|].
  cbn [for_each_arg forallb fmap list_fmap print_lines].
  unfold mbind at 1, printing_bind at 1, mbind at 1, printing_bind at 1, silent at 1.
  pose proof (eq_refl (report_line a)) as Hline. unfold report_line at 2 in Hline.
  rewrite is_valid_national_id_spec in *.
  destruct (spec_validate (Some a)) as [[ok reason] norm].
  cbn [fst snd andb]. rewrite Hline. destruct ok.
  - unfold mbind at 1, printing_bind at 1, print at 1.
    destruct (print_failure out _); [done|].
    unfold mret at 1, printing_ret at 1. by rewrite IH.
  - unfold mbind at 1, printing_bind at 1, print at 1.
    destruct (print_failure out _); [done|].
    unfold mret at 1, printing_ret at 1. rewrite IH.
    destruct (print_lines _ _) as [[e|] out']; [done|].
    by destruct (forallb _ args).
Qed.

(** [_cli_main] prints [cli_lines] until [print] raises, and returns the
    exit code when none did. *)
Lemma cli_main_print_lines argv out :
  _cli_main argv out
  = match print_lines (cli_lines argv) out with
    | (None, out') =>
        (Returns (if bool_decide (length argv < 2)%nat then 2%Z
                  else if forallb (λ a, (spec_validate (Some a)).1.1) (drop 1 argv)
                       then 0%Z else 1%Z), out')
    | (Some e, out') => (Raises e, out')
    end.
Proof.
  unfold _cli_main, cli_lines. case_bool_decide as Hlen; [|apply cli_loop].
  cbn [print_lines]. unfold mbind, printing_bind, print.
  by destruct (print_failure out _).
Qed.




(** X14: what [_cli_main] sets out to print is the one usage line when no
    argument follows the program name, and otherwise one line for each
    argument, in the order given: for a valid one the argument and its
    normalized code after VALID, for an invalid one the argument, the
    reason and the normalized code (None when there is none) after
    INVALID. It prints these lines in order; when it returns all of them
    are printed, and when it raises, the lines before the one on which
    [print] raised are printed and nothing after them. *)
Theorem cli_output argv out :
  ∃ expected printed result,
    _cli_main argv out = (result, out ++ printed)
    ∧ ((length argv < 2)%nat →
       expected
       = [py "Usage: python ir_national_id_validator.py <national_id> [<national_id> ...]"])
    ∧ ((2 ≤ length argv)%nat →
       length expected = (length argv - 1)%nat
       ∧ ∀ i a, argv !! S i = Some a →
           ∃ line, expected !! i = Some line
             ∧ ((is_valid_national_id (Some a)
                 = Returns (true, None, Some (normalize_national_id (Some a)))
                 ∧ line = py "VALID  -> " ++ a ++ py "  normalized: "
                          ++ normalize_national_id (Some a))
                ∨ (∃ reason norm,
                     is_valid_national_id (Some a) = Returns (false, Some reason, norm)
                     ∧ line = py "INVALID -> " ++ a ++ py "  reason: " ++ reason
                              ++ py "  normalized: " ++ format_opt norm)))
    ∧ printed `prefix_of` expected
    ∧ match result with
      | Returns _ => printed = expected
      | Raises e => ∃ line, expected !! length printed = Some line
                            ∧ print_failure (out ++ printed) line = Some e
      end.
Proof.
  destruct (print_lines_spec (cli_lines argv) out) as (printed & Hout & Hprefix & Hend).
  exists (cli_lines argv), printed. rewrite cli_main_print_lines.
  destruct (print_lines (cli_lines argv) out) as [[e|] out']; cbn [fst snd] in *; subst out'.
  all: eexists; split; [reflexivity|].
  all: split; [intros Hlen; unfold cli_lines; by rewrite bool_decide_eq_true_2|].
  all: split; [|by split].
  all: intros Hlen; unfold cli_lines; rewrite bool_decide_eq_false_2 by lia.
  all: split; [by rewrite length_fmap, length_drop|].
  all: intros i a Ha; exists (report_line a); split;
    [rewrite list_lookup_fmap, lookup_drop; cbn; by rewrite Ha|].
  all: unfold report_line; rewrite is_valid_national_id_spec.
  all: pose proof (spec_validate_valid (Some a)) as Hvalid.
  all: pose proof (spec_validate_reason_iff (Some a)) as [_ Hreason].
  all: destruct (spec_validate (Some a)) as [[ok reason] norm]; cbn [fst snd] in *.
  all: destruct ok;
    [ left; destruct Hvalid as [[= -> ->] _]; done
    | right; destruct Hreason as [r ->]; [done|]; by exists r, norm ].
Qed.

End CommandLineProperties.

(** On an ASCII standard output a Persian argument stops [_cli_main]: the
    line of the argument before it is printed, the exception of [print]
    leaves the function, and the argument after it is never reported. *)
Example cli_stops_at_unprintable_argument :
  @_cli_main three_script_unicode ascii_stdout
    [py "prog"; py "0499370899"; persian_0499370899; py "12-34"] []
  = (Raises UnicodeEncodeError,
     [py "VALID  -> 0499370899  normalized: 0499370899"]).
Proof. by vm_compute. Qed.

(** *** The further properties at concrete inputs *)

Lemma validation_depends_on_normal_form_witness :
  normalize_national_id (Some (py " 0499-370899 ")) = normalize_national_id (Some (py "0499370899"))
  ∧ @is_valid_national_id three_script_unicode (Some (py " 0499-370899 "))
    = @is_valid_national_id three_script_unicode (Some (py "0499370899")).
Proof.
  assert (normalize_national_id (Some (py " 0499-370899 "))
          = normalize_national_id (Some (py "0499370899"))) as Hnorm.
  { vm_compute. reflexivity. }
  split; [exact Hnorm|].
  exact (proj1 (@validation_depends_on_normal_form three_script_unicode _ _ Hnorm)).
Defined.

Lemma separators_ignored_witness :
  ¬ is_digit_glyph 45
  ∧ normalize_national_id (Some (py "0499" ++ 45 :: py "370899"))
    = normalize_national_id (Some (py "0499" ++ py "370899")).
Proof.
  assert (¬ is_digit_glyph 45) as Hdash.
  { unfold is_digit_glyph, is_latin_digit. lia. }
  split; [exact Hdash|].
  exact (proj1 (@separators_ignored three_script_unicode (py "0499") 45 (py "370899") Hdash)).
Defined.

Lemma script_insensitive_witness :
  Forall (λ k, k < 10) [0; 4; 9; 9; 3; 7; 0; 8; 9; 9]
  ∧ @is_valid_national_id three_script_unicode (Some persian_0499370899)
    = @is_valid_national_id three_script_unicode (Some (py "0499370899")).
Proof.
  assert (Forall (λ k, k < 10) [0; 4; 9; 9; 3; 7; 0; 8; 9; 9]) as Hds.
  { apply (bool_decide_unpack _). vm_compute. exact I. }
  split; [exact Hds|].
  exact (proj1 (@script_insensitive three_script_unicode _ Hds)).
Defined.

Lemma checksum_on_decimal_digits_witness :
  Forall (λ c, is_Some (@py_decimal three_script_unicode c)) persian_0499370899
  ∧ (10 ≤ length persian_0499370899)%nat
  ∧ @_checksum_ok three_script_unicode persian_0499370899 = Returns true.
Proof.
  assert (Forall (λ c, is_Some (@py_decimal three_script_unicode c)) persian_0499370899)
    as Hdec.
  { apply (bool_decide_unpack _). vm_compute. exact I. }
  assert (10 ≤ length persian_0499370899)%nat as Hlen.
  { vm_compute. lia. }
  split; [exact Hdec|]. split; [exact Hlen|].
  exact (proj1 (@checksum_on_decimal_digits three_script_unicode _ Hdec Hlen)).
Defined.

Lemma check_digit_unique_witness :
  length (py "049937089") = 9%nat
  ∧ Forall is_latin_digit (py "049937089")
  ∧ ∃ c, is_latin_digit c
         ∧ ∀ c', is_latin_digit c' →
             (@_checksum_ok three_script_unicode (py "049937089" ++ [c']) = Returns true
              ↔ c' = c).
Proof.
  assert (Forall is_latin_digit (py "049937089")) as Hdigits.
  { apply (bool_decide_unpack _). vm_compute. exact I. }
  split; [reflexivity|]. split; [exact Hdigits|].
  exact (@check_digit_unique three_script_unicode (py "049937089") eq_refl Hdigits).
Defined.

Lemma repeated_digits_pass_checksum_witness :
  py "1111111111" ∈ _INVALID_SAME_DIGITS
  ∧ @_checksum_ok three_script_unicode (py "1111111111") = Returns true.
Proof.
  assert (py "1111111111" ∈ _INVALID_SAME_DIGITS) as Hin.
  { apply (bool_decide_unpack _). vm_compute. exact I. }
  split; [exact Hin|].
  exact (@repeated_digits_pass_checksum three_script_unicode _ Hin).
Defined.

